(** * Steady-state heat equation notebook (newmodel.ipynb)

    A shallow embedding of the notebook [newmodel.ipynb].  The notebook is a
    linear Python script run cell by cell; it calls the [underworld] finite
    element library (mesh, mesh variables, boundary conditions, solver,
    integral) and the [glucifer] plotting package.

    - Python floats are modelled as rationals [Q]; the literals of the notebook
      ([1.0], [2.0], [0.5], [0.]) are exact binary floats.
    - The Python global namespace is an association list (newest binding
      first), the data arrays of mesh variables live in a store indexed by a
      handle, and every library call is recorded in an event log.
    - A cell is a computation in a state/exception monad; an exception stops
      the notebook and keeps the state reached so far, as Jupyter does.
    - The numerical routines of [underworld] (special vertex sets, the initial
      contents of a new variable, the steady-state solve, the integral) are
      not part of this repository: they are the methods of the class
      [Underworld], and every result below holds for any implementation. *)

From Stdlib Require Import String List PeanoNat QArith Qabs Bool Lia.
Import ListNotations.
Open Scope nat_scope.

(** ** Values of the notebook *)

Record MeshArgs := mkMeshArgs {
  elementType : string;
  elementRes : nat * nat;
  minCoord : Q * Q;
  maxCoord : Q * Q
}.

(** An [underworld] index set, as the list of the indices it contains. *)
Definition IndexSet := list nat.

(** [IndexSet.__add__]: the union of two index sets. *)
Definition iset_add (a b : IndexSet) : IndexSet :=
  a ++ filter (fun x => negb (existsb (Nat.eqb x) a)) b.

Record DirichletCondition := mkDirichlet {
  dc_variable : nat;                (** handle of the constrained variable *)
  dc_indexSetsPerDof : list IndexSet
}.

Inductive DrawingObject :=
| DMesh (m : MeshArgs)
| DSurface (m : MeshArgs) (field : nat) (colours : string).

Record HeatSystem := mkHeatSystem {
  hs_temperatureField : nat;
  hs_diffusivity : Q;
  hs_conditions : DirichletCondition
}.

Inductive value :=
| VModule (name : string)
| VFloat (q : Q)
| VInt (n : nat)
| VMesh (m : MeshArgs)
| VMeshVariable (h : nat)
| VIndexSet (s : IndexSet)
| VDirichlet (dc : DirichletCondition)
| VFigure (objects : list DrawingObject)
| VHeatSystem (hs : HeatSystem)
| VSolver (hs : HeatSystem)
| VIntegral (field : nat) (m : MeshArgs).

(** Library calls and notebook statements, in the order they run. *)
Inductive event :=
| EvImport (module : string)
| EvParam (name : string)
| EvMesh
| EvAddVariable
| EvFillData
| EvSetData (indices : string)
| EvSpecialSet (name : string)
| EvIndexSetAdd
| EvDirichlet
| EvFigure
| EvFigAppend
| EvShow
| EvHeatSystem
| EvSolver
| EvSolve
| EvIntegral
| EvEvaluate
| EvIsClose
| EvRaise.

Inductive exn :=
| NameError (x : string)
| TypeError
| IndexError
| ZeroDivisionError
| RuntimeError (msg : string).

Record State := mkState {
  globals : list (string * value);
  store : list (MeshArgs * list Q);   (** mesh and data array of each variable *)
  events : list event
}.

Definition init : State := mkState [] [] [].

(** ** A state and exception monad *)

Inductive result (A : Type) :=
| Ok (a : A)
| Err (e : exn).
Arguments Ok {A} a.
Arguments Err {A} e.

Definition M (A : Type) := State -> result A * State.

Definition ret {A} (a : A) : M A := fun s => (Ok a, s).

Definition bind {A B} (m : M A) (f : A -> M B) : M B := fun s =>
  match m s with
  | (Ok a, s') => f a s'
  | (Err e, s') => (Err e, s')
  end.

Notation "x <- m ;; k" := (bind m (fun x => k))
  (at level 61, m at next level, right associativity).
Notation "m ;; k" := (bind m (fun _ => k))
  (at level 61, right associativity).

Definition raise {A} (e : exn) : M A := fun s => (Err e, s).

Definition emit (ev : event) : M unit := fun s =>
  (Ok tt, mkState (globals s) (store s) (events s ++ [ev])).

Definition assign (x : string) (v : value) : M unit := fun s =>
  (Ok tt, mkState ((x, v) :: globals s) (store s) (events s)).

Fixpoint lookup (x : string) (g : list (string * value)) : option value :=
  match g with
  | [] => None
  | (y, v) :: g' => if String.eqb x y then Some v else lookup x g'
  end.

Definition load (x : string) : M value := fun s =>
  match lookup x (globals s) with
  | Some v => (Ok v, s)
  | None => (Err (NameError x), s)
  end.

Definition load_float (x : string) : M Q :=
  v <- load x ;; match v with VFloat q => ret q | _ => raise TypeError end.
Definition load_nat (x : string) : M nat :=
  v <- load x ;; match v with VInt n => ret n | _ => raise TypeError end.
Definition load_mesh (x : string) : M MeshArgs :=
  v <- load x ;; match v with VMesh m => ret m | _ => raise TypeError end.
Definition load_variable (x : string) : M nat :=
  v <- load x ;; match v with VMeshVariable h => ret h | _ => raise TypeError end.
Definition load_iset (x : string) : M IndexSet :=
  v <- load x ;; match v with VIndexSet i => ret i | _ => raise TypeError end.
Definition load_dirichlet (x : string) : M DirichletCondition :=
  v <- load x ;; match v with VDirichlet d => ret d | _ => raise TypeError end.
Definition load_figure (x : string) : M (list DrawingObject) :=
  v <- load x ;; match v with VFigure o => ret o | _ => raise TypeError end.
Definition load_heat (x : string) : M HeatSystem :=
  v <- load x ;; match v with VHeatSystem h => ret h | _ => raise TypeError end.
Definition load_solver (x : string) : M HeatSystem :=
  v <- load x ;; match v with VSolver h => ret h | _ => raise TypeError end.
Definition load_integral (x : string) : M (nat * MeshArgs) :=
  v <- load x ;; match v with VIntegral h m => ret (h, m) | _ => raise TypeError end.

(** A new mesh variable: its handle is its position in the store. *)
Definition alloc (m : MeshArgs) (d : list Q) : M nat := fun s =>
  (Ok (length (store s)), mkState (globals s) (store s ++ [(m, d)]) (events s)).

Definition read_var (h : nat) : M (MeshArgs * list Q) := fun s =>
  match nth_error (store s) h with
  | Some md => (Ok md, s)
  | None => (Err IndexError, s)
  end.

Fixpoint list_set {A} (l : list A) (i : nat) (v : A) : list A :=
  match l, i with
  | [], _ => []
  | _ :: l', 0 => v :: l'
  | x :: l', S i' => x :: list_set l' i' v
  end.

Definition write_data (h : nat) (d : list Q) : M unit := fun s =>
  match nth_error (store s) h with
  | Some (m, _) => (Ok tt, mkState (globals s) (list_set (store s) h (m, d)) (events s))
  | None => (Err IndexError, s)
  end.

(** numpy [a[idx] = v] for an index array: every index is checked against the
    length of [a] before the array is written. *)
Definition scatter (idx : IndexSet) (v : Q) (d : list Q) : list Q :=
  fold_left (fun acc i => list_set acc i v) idx d.

Definition set_at_indices (idx : IndexSet) (v : Q) (d : list Q) : option (list Q) :=
  if forallb (fun i => Nat.ltb i (length d)) idx
  then Some (scatter idx v d)
  else None.

(** [numpy.isclose(a, b)] with its defaults [rtol = 1e-05], [atol = 1e-08]:
    [absolute(a - b) <= atol + rtol * absolute(b)]. *)
Definition np_rtol : Q := (1 # 100000)%Q.
Definition np_atol : Q := (1 # 100000000)%Q.
Definition np_isclose (a b : Q) : bool :=
  Qle_bool (Qabs (a - b)) (np_atol + np_rtol * Qabs b)%Q.

(** ** The wrapped library

    The entry points of [underworld] that the notebook relies on and whose
    code is not in this repository. *)
Class Underworld := {
  (** [mesh.specialSets[name]] *)
  uw_specialSet : MeshArgs -> string -> IndexSet;
  (** the data array of [mesh.add_variable(nodeDofCount)] when it is created *)
  uw_variableData : MeshArgs -> nat -> list Q;
  (** [Solver(SteadyStateHeat(field, fn_diffusivity, conditions)).solve()]:
      the new data of the field from the mesh, the diffusivity, the index sets
      of the Dirichlet condition and the data before the solve *)
  uw_solve : MeshArgs -> Q -> list IndexSet -> list Q -> list Q;
  (** [Integral(field, mesh).evaluate()] *)
  uw_integral : MeshArgs -> list Q -> list Q
}.

Section Notebook.
Context `{UW : Underworld}.

(** [fig.append(obj)] *)
Definition fig_append (o : DrawingObject) : M unit :=
  objs <- load_figure "fig" ;;
  emit EvFigAppend ;;
  assign "fig" (VFigure (objs ++ [o])).

(** [fig.show()] *)
Definition fig_show : M unit :=
  _ <- load_figure "fig" ;;
  emit EvShow.

(** [temperatureField.data[x] = v] *)
Definition set_data_at (x : string) (v : Q) : M unit :=
  h <- load_variable "temperatureField" ;;
  idx <- load_iset x ;;
  md <- read_var h ;;
  match set_at_indices idx v (snd md) with
  | Some d => write_data h d
  | None => raise IndexError
  end ;;
  emit (EvSetData x).

Definition cell1 : M unit :=
  emit (EvImport "underworld") ;; assign "uw" (VModule "underworld") ;;
  emit (EvImport "glucifer") ;; assign "glucifer" (VModule "glucifer").

Definition cell2 : M unit :=
  emit (EvParam "boxHeight") ;; assign "boxHeight" (VFloat 1%Q) ;;
  emit (EvParam "boxLength") ;; assign "boxLength" (VFloat 2%Q) ;;
  emit (EvParam "resx") ;; assign "resx" (VInt 16) ;;
  emit (EvParam "resy") ;; assign "resy" (VInt 8) ;;
  rx <- load_nat "resx" ;; ry <- load_nat "resy" ;;
  bl <- load_float "boxLength" ;; bh <- load_float "boxHeight" ;;
  emit EvMesh ;;
  assign "mesh" (VMesh (mkMeshArgs "Q1/dQ0" (rx, ry) (0%Q, 0%Q) (bl, bh))).

Definition cell3 : M unit :=
  m <- load_mesh "mesh" ;;
  emit EvAddVariable ;;
  h <- alloc m (uw_variableData m 1) ;;
  assign "temperatureField" (VMeshVariable h) ;;
  h' <- load_variable "temperatureField" ;;
  md <- read_var h' ;;
  write_data h' (map (fun _ => 0%Q) (snd md)) ;;
  emit EvFillData.

Definition cell4 : M unit :=
  m <- load_mesh "mesh" ;;
  emit (EvSpecialSet "Bottom_VertexSet") ;;
  assign "botWalls" (VIndexSet (uw_specialSet m "Bottom_VertexSet")) ;;
  m' <- load_mesh "mesh" ;;
  emit (EvSpecialSet "Top_VertexSet") ;;
  assign "topWalls" (VIndexSet (uw_specialSet m' "Top_VertexSet")) ;;
  b <- load_iset "botWalls" ;; t <- load_iset "topWalls" ;;
  emit EvIndexSetAdd ;;
  assign "bcWalls" (VIndexSet (iset_add b t)) ;;
  h <- load_variable "temperatureField" ;; bc <- load_iset "bcWalls" ;;
  emit EvDirichlet ;;
  assign "tempBC" (VDirichlet (mkDirichlet h [bc])).

Definition cell5 : M unit :=
  set_data_at "botWalls" 1%Q ;;
  set_data_at "topWalls" 0%Q.

Definition cell6 : M unit :=
  emit EvFigure ;; assign "fig" (VFigure []) ;;
  m <- load_mesh "mesh" ;; fig_append (DMesh m) ;;
  m' <- load_mesh "mesh" ;; h <- load_variable "temperatureField" ;;
  fig_append (DSurface m' h "blue white red") ;;
  fig_show.

Definition cell7 : M unit :=
  h <- load_variable "temperatureField" ;; dc <- load_dirichlet "tempBC" ;;
  emit EvHeatSystem ;;
  assign "heatequation" (VHeatSystem (mkHeatSystem h 1%Q dc)) ;;
  he <- load_heat "heatequation" ;;
  emit EvSolver ;;
  assign "heatsolver" (VSolver he) ;;
  hs <- load_solver "heatsolver" ;;
  md <- read_var (hs_temperatureField hs) ;;
  emit EvSolve ;;
  write_data (hs_temperatureField hs)
    (uw_solve (fst md) (hs_diffusivity hs)
       (dc_indexSetsPerDof (hs_conditions hs)) (snd md)).

Definition cell8 : M unit := fig_show.

Definition check_message : string :=
  "Incorrect average temperature produced by model. ".

Definition cell9 : M unit :=
  emit (EvImport "numpy") ;; assign "np" (VModule "numpy") ;;
  h <- load_variable "temperatureField" ;; m <- load_mesh "mesh" ;;
  emit EvIntegral ;;
  assign "tottemp" (VIntegral h m) ;;
  it <- load_integral "tottemp" ;;
  md <- read_var (fst it) ;;
  emit EvEvaluate ;;
  match uw_integral (snd it) (snd md) with
  | [] => raise IndexError
  | i0 :: _ =>
      bh <- load_float "boxHeight" ;; bl <- load_float "boxLength" ;;
      if Qeq_bool (bh * bl) 0 then raise ZeroDivisionError
      else assign "avtemp" (VFloat (i0 / (bh * bl)))
  end ;;
  a <- load_float "avtemp" ;;
  emit EvIsClose ;;
  if negb (np_isclose a (1 # 2)) then
    emit EvRaise ;; raise (RuntimeError check_message)
  else ret tt.

Definition notebook : list (M unit) :=
  [cell1; cell2; cell3; cell4; cell5; cell6; cell7; cell8; cell9].

Fixpoint run_cells (cs : list (M unit)) : M unit :=
  match cs with
  | [] => ret tt
  | c :: cs' => c ;; run_cells cs'
  end.

(** The notebook run from a fresh kernel up to (and including) cell [k]. *)
Definition run_upto (k : nat) : result unit * State :=
  run_cells (firstn k notebook) init.

Definition run_all : result unit * State := run_cells notebook init.

End Notebook.

(** ** Stages of the script *)

Inductive stage := Params | MeshVar | BCs | Visual | Solve | Check.

Definition stage_of (ev : event) : option stage :=
  match ev with
  | EvImport _ => None
  | EvParam _ => Some Params
  | EvMesh | EvAddVariable | EvFillData => Some MeshVar
  | EvSpecialSet _ | EvIndexSetAdd | EvDirichlet | EvSetData _ => Some BCs
  | EvFigure | EvFigAppend | EvShow => Some Visual
  | EvHeatSystem | EvSolver | EvSolve => Some Solve
  | EvIntegral | EvEvaluate | EvIsClose | EvRaise => Some Check
  end.

Definition stage_eqb (a b : stage) : bool :=
  match a, b with
  | Params, Params | MeshVar, MeshVar | BCs, BCs | Visual, Visual
  | Solve, Solve | Check, Check => true
  | _, _ => false
  end.

(** Runs of one stage collapsed into one entry. *)
Fixpoint compress (l : list stage) : list stage :=
  match l with
  | [] => []
  | a :: l' =>
      match compress l' with
      | b :: r => if stage_eqb a b then b :: r else a :: b :: r
      | [] => [a]
      end
  end.

Fixpoint filter_some {A} (l : list (option A)) : list A :=
  match l with
  | [] => []
  | Some a :: l' => a :: filter_some l'
  | None :: l' => filter_some l'
  end.

Definition stage_trace (evs : list event) : list stage :=
  compress (filter_some (map stage_of evs)).

(** ** A sample implementation of the library

    A structured Cartesian mesh with its nodes numbered row by row from the
    bottom-left corner, the linear temperature profile as the solution of the
    problem, and the Q1 (bilinear) integral.  It serves to instantiate the
    theorems at a concrete input. *)
Module Cartesian.

Definition nx (m : MeshArgs) : nat := S (fst (elementRes m)).
Definition ny (m : MeshArgs) : nat := S (snd (elementRes m)).

Definition specialSet (m : MeshArgs) (name : string) : IndexSet :=
  if String.eqb name "Bottom_VertexSet" then seq 0 (nx m)
  else if String.eqb name "Top_VertexSet" then
    seq (snd (elementRes m) * nx m) (nx m)
  else [].

Definition variableData (m : MeshArgs) (dofs : nat) : list Q :=
  repeat 0%Q (nx m * ny m * dofs).

Definition solve (m : MeshArgs) (k : Q) (bcs : list IndexSet) (d : list Q) : list Q :=
  map (fun n => (1 - inject_Z (Z.of_nat (Nat.div n (nx m))) / inject_Z (Z.of_nat (snd (elementRes m))))%Q)
    (seq 0 (length d)).

Definition integral (m : MeshArgs) (d : list Q) : list Q :=
  let rx := fst (elementRes m) in
  let ry := snd (elementRes m) in
  let dx := ((fst (maxCoord m) - fst (minCoord m)) / inject_Z (Z.of_nat rx))%Q in
  let dy := ((snd (maxCoord m) - snd (minCoord m)) / inject_Z (Z.of_nat ry))%Q in
  let v i j := nth (j * nx m + i) d 0%Q in
  [fold_left Qplus
     (flat_map (fun j => map (fun i =>
        (dx * dy * (v i j + v (S i) j + v i (S j) + v (S i) (S j)) / 4)%Q)
        (seq 0 rx)) (seq 0 ry)) 0%Q].

#[export] Instance uw : Underworld := {|
  uw_specialSet := specialSet;
  uw_variableData := variableData;
  uw_solve := solve;
  uw_integral := integral
|}.

(** The same mesh with variables created without data, and with an integral
    that evaluates to no value: two ill-behaved libraries that exercise the
    error paths of the notebook. *)
#[export] Instance uw_nodata : Underworld := {|
  uw_specialSet := specialSet;
  uw_variableData := fun _ _ => [];
  uw_solve := solve;
  uw_integral := integral
|}.

#[export] Instance uw_nointegral : Underworld := {|
  uw_specialSet := specialSet;
  uw_variableData := variableData;
  uw_solve := solve;
  uw_integral := fun _ _ => []
|}.

End Cartesian.

(** ** Properties of the notebook *)

Section Properties.
Context `{UW : Underworld}.

(** The mesh built by cell 2. *)
Definition the_mesh : MeshArgs := mkMeshArgs "Q1/dQ0" (16, 8) (0%Q, 0%Q) (2%Q, 1%Q).

Lemma map_const_zero {A} (l : list A) :
  Forall (fun x => x = 0%Q) (map (fun _ => 0%Q) l).
Proof. induction l; constructor; auto. Qed.

(** C4: right after [temperatureField = mesh.add_variable(nodeDofCount=1)]
    and [temperatureField.data[:] = 0.] (cell 3), whatever the library put in
    the new array, every entry of the field's data array is [0.0]. *)
Theorem field_initialised_to_zero :
  exists s h d,
    run_upto 3 = (Ok tt, s) /\
    lookup "temperatureField" (globals s) = Some (VMeshVariable h) /\
    nth_error (store s) h = Some (the_mesh, d) /\
    Forall (fun x => x = 0%Q) d.
Proof.
  eexists _, 0, _. split; [unfold run_upto; cbv; reflexivity|]. cbv.
  split; [reflexivity|]. split; [reflexivity|]. apply map_const_zero.
Qed.

Lemma iset_add_spec (a b : IndexSet) (i : nat) :
  In i (iset_add a b) <-> In i a \/ In i b.
Proof.
  unfold iset_add. rewrite in_app_iff, filter_In. split.
  - intros [H | [H _]]; auto.
  - intros [H | H]; [now left|].
    destruct (existsb (Nat.eqb i) a) eqn:E.
    + left. apply existsb_exists in E as [x [Hx Hix]].
      apply Nat.eqb_eq in Hix. now subst.
    + right. now split.
Qed.

(** C5: after cell 4, [bcWalls] is the union of the bottom and top vertex
    sets of the mesh, and [tempBC] is the Dirichlet condition on
    [temperatureField] whose only per-DOF index set is [bcWalls]: an index is
    constrained exactly when it is a bottom or a top vertex. *)
Theorem dirichlet_on_walls :
  exists s h bc,
    run_upto 4 = (Ok tt, s) /\
    lookup "temperatureField" (globals s) = Some (VMeshVariable h) /\
    lookup "bcWalls" (globals s) = Some (VIndexSet bc) /\
    lookup "tempBC" (globals s) = Some (VDirichlet (mkDirichlet h [bc])) /\
    bc = iset_add (uw_specialSet the_mesh "Bottom_VertexSet")
                  (uw_specialSet the_mesh "Top_VertexSet") /\
    (forall i, In i bc <->
       In i (uw_specialSet the_mesh "Bottom_VertexSet") \/
       In i (uw_specialSet the_mesh "Top_VertexSet")).
Proof.
  eexists _, 0, _. split; [unfold run_upto; cbv; reflexivity|].
  cbv -[iset_add uw_specialSet].
  do 4 (split; [reflexivity|]). intros i. apply iset_add_spec.
Qed.

(** C8: cell 2 builds [mesh] as a Cartesian mesh with element type
    ["Q1/dQ0"], element resolution [(resx, resy) = (16, 8)] and bounds
    [(0., 0.)] to [(boxLength, boxHeight) = (2.0, 1.0)]. *)
Theorem mesh_matches_parameters :
  exists s m,
    run_upto 2 = (Ok tt, s) /\
    lookup "mesh" (globals s) = Some (VMesh m) /\
    lookup "boxHeight" (globals s) = Some (VFloat 1) /\
    lookup "boxLength" (globals s) = Some (VFloat 2) /\
    lookup "resx" (globals s) = Some (VInt 16) /\
    lookup "resy" (globals s) = Some (VInt 8) /\
    elementType m = "Q1/dQ0"%string /\
    elementRes m = (16, 8) /\
    minCoord m = (0%Q, 0%Q) /\
    maxCoord m = (2%Q, 1%Q).
Proof.
  eexists _, _. split; [unfold run_upto; cbv; reflexivity|].
  cbv. repeat split; reflexivity.
Qed.

Lemma length_list_set {A} (l : list A) i v : length (list_set l i v) = length l.
Proof. revert i; induction l; intros [|i]; cbn; auto. Qed.

Lemma list_set_same {A} (l : list A) i v :
  i < length l -> nth_error (list_set l i v) i = Some v.
Proof.
  revert i; induction l; intros [|i] Hi; cbn in *; try lia; auto.
  apply IHl; lia.
Qed.

Lemma list_set_other {A} (l : list A) i j v :
  i <> j -> nth_error (list_set l i v) j = nth_error l j.
Proof.
  revert i j; induction l; intros [|i] [|j] Hij; cbn; auto; try congruence.
Qed.

Lemma length_scatter idx v d : length (scatter idx v d) = length d.
Proof.
  unfold scatter. revert d; induction idx as [|i idx IH]; intros d; cbn; auto.
  rewrite IH. apply length_list_set.
Qed.

Lemma scatter_cons i idx v d :
  scatter (i :: idx) v d = scatter idx v (list_set d i v).
Proof. reflexivity. Qed.

Lemma scatter_notin idx v d j :
  ~ In j idx -> nth_error (scatter idx v d) j = nth_error d j.
Proof.
  revert d; induction idx as [|i idx IH]; intros d Hj; [reflexivity|].
  rewrite scatter_cons, IH by (intro; apply Hj; now right).
  apply list_set_other. intro; apply Hj; now left.
Qed.

Lemma scatter_in idx v d j :
  In j idx -> j < length d -> nth_error (scatter idx v d) j = Some v.
Proof.
  revert d; induction idx as [|i idx IH]; intros d Hj Hlen; [destruct Hj|].
  rewrite scatter_cons.
  destruct (in_dec Nat.eq_dec j idx) as [Hin | Hout].
  - apply IH; [exact Hin|]. now rewrite length_list_set.
  - destruct Hj as [-> | Hin]; [|contradiction].
    rewrite scatter_notin by exact Hout. now apply list_set_same.
Qed.

Lemma set_at_indices_ok idx v d :
  (forall i, In i idx -> i < length d) ->
  set_at_indices idx v d = Some (scatter idx v d).
Proof.
  intros H. unfold set_at_indices.
  replace (forallb _ idx) with true; [reflexivity|].
  symmetry. apply forallb_forall. intros i Hi. apply Nat.ltb_lt. auto.
Qed.

Lemma set_at_indices_some idx v d d' :
  set_at_indices idx v d = Some d' -> d' = scatter idx v d.
Proof.
  unfold set_at_indices. destruct (forallb _ _); congruence.
Qed.

Lemma nth_error_map_zero {A} (l : list A) i x :
  nth_error (map (fun _ => 0%Q) l) i = Some x -> x = 0%Q.
Proof.
  rewrite nth_error_map. destruct (nth_error l i); cbn; congruence.
Qed.

(** Evaluates the notebook and keeps the index-set assignments readable. *)
Ltac run_notebook :=
  cbv -[set_at_indices scatter map uw_specialSet uw_variableData the_mesh].

Definition bottom := uw_specialSet the_mesh "Bottom_VertexSet".
Definition top := uw_specialSet the_mesh "Top_VertexSet".
Definition data0 := uw_variableData the_mesh 1.

(** C6: before the solve (through cell 6), the field holds [1.0] at every
    bottom-wall index and [0.0] at every top-wall index, on a mesh whose
    bottom and top vertex sets are disjoint and index the data array. *)
Theorem boundary_values_assigned
  (Hbot : forall i, In i bottom -> i < length data0)
  (Htop : forall i, In i top -> i < length data0)
  (Hdisj : forall i, In i bottom -> ~ In i top) :
  exists s h d,
    run_upto 6 = (Ok tt, s) /\
    lookup "temperatureField" (globals s) = Some (VMeshVariable h) /\
    nth_error (store s) h = Some (the_mesh, d) /\
    (forall i, In i bottom -> nth_error d i = Some 1%Q) /\
    (forall i, In i top -> nth_error d i = Some 0%Q).
Proof.
  unfold run_upto. run_notebook.
  rewrite set_at_indices_ok
    by (intros i Hi; rewrite length_map; now apply Hbot).
  run_notebook.
  rewrite set_at_indices_ok
    by (intros i Hi; rewrite length_scatter, length_map; now apply Htop).
  run_notebook.
  eexists _, 0, _. split; [reflexivity|]. run_notebook.
  do 2 (split; [reflexivity|]). split.
  - intros i Hi. rewrite scatter_notin by (now apply Hdisj).
    apply scatter_in; [exact Hi|]. rewrite length_map. now apply Hbot.
  - intros i Hi. apply scatter_in; [exact Hi|].
    rewrite length_scatter, length_map. now apply Htop.
Qed.

Ltac case_set_at_indices :=
  match goal with
  | |- context [set_at_indices ?a ?b ?c] =>
      let E := fresh "E" in
      destruct (set_at_indices a b c) eqn:E;
      [apply set_at_indices_some in E; subst|]
  end.

(** C9: through cell 6 (after the boundary assignments of cell 5 and the
    figure of cell 6, before the solve), every entry of the field at an index
    in neither the bottom nor the top vertex set is still [0.0]; this holds
    also when an assignment of cell 5 raises. *)
Theorem interior_entries_zero :
  forall h d i x,
    lookup "temperatureField" (globals (snd (run_upto 6))) = Some (VMeshVariable h) ->
    nth_error (store (snd (run_upto 6))) h = Some (the_mesh, d) ->
    ~ In i bottom -> ~ In i top ->
    nth_error d i = Some x -> x = 0%Q.
Proof.
  unfold run_upto. run_notebook.
  case_set_at_indices; run_notebook; [case_set_at_indices; run_notebook|];
    intros h d i x Hh Hd Hb Ht Hx; injection Hh as <-; cbn in Hd;
    injection Hd as <-; unfold bottom, top in *;
    repeat rewrite scatter_notin in Hx by assumption;
    eapply nth_error_map_zero; exact Hx.
Qed.

(** A computation that leaves the variable store and the bindings of [mesh]
    and [temperatureField] as they were, whether it returns or raises. *)
Definition frame {A} (c : M A) : Prop :=
  forall s,
    store (snd (c s)) = store s /\
    lookup "mesh" (globals (snd (c s))) = lookup "mesh" (globals s) /\
    lookup "temperatureField" (globals (snd (c s))) =
      lookup "temperatureField" (globals s).

Lemma frame_ret {A} (a : A) : frame (ret a).
Proof. intros s; auto. Qed.

Lemma frame_raise {A} e : frame (@raise A e).
Proof. intros s; auto. Qed.

Lemma frame_emit ev : frame (emit ev).
Proof. intros s; auto. Qed.

Lemma frame_load x : frame (load x).
Proof. intros s; unfold load; destruct (lookup x (globals s)); auto. Qed.

Lemma frame_read_var h : frame (read_var h).
Proof. intros s; unfold read_var; destruct (nth_error (store s) h); auto. Qed.

Lemma frame_assign x v :
  String.eqb "mesh" x = false -> String.eqb "temperatureField" x = false ->
  frame (assign x v).
Proof. intros H1 H2 s; unfold assign; cbn [snd globals store lookup]; rewrite H1, H2; auto. Qed.

Lemma frame_bind {A B} (m : M A) (f : A -> M B) :
  frame m -> (forall a, frame (f a)) -> frame (bind m f).
Proof.
  intros Hm Hf s; unfold bind.
  destruct (m s) as [[a|e] s'] eqn:E;
    destruct (Hm s) as (H1 & H2 & H3); rewrite E in H1, H2, H3; cbn in *.
  - destruct (Hf a s') as (H4 & H5 & H6). repeat split; congruence.
  - auto.
Qed.

Create HintDb frame.
#[local] Hint Resolve frame_ret frame_raise frame_emit frame_load frame_read_var : frame.

Ltac frame_step :=
  first
    [ apply frame_bind; intros
    | apply frame_assign; reflexivity
    | progress auto with frame
    | progress unfold load_float, load_variable, load_mesh, load_integral
    | match goal with |- frame (match ?x with _ => _ end) => destruct x end ].

(** C10: the check of cell 9 only reads the field and the mesh: from any
    state, whether it passes or raises, it leaves the data of every mesh
    variable and the bindings of [mesh] and [temperatureField] unchanged. *)
Theorem check_reads_only (s : State) :
  store (snd (cell9 s)) = store s /\
  lookup "mesh" (globals (snd (cell9 s))) = lookup "mesh" (globals s) /\
  lookup "temperatureField" (globals (snd (cell9 s))) =
    lookup "temperatureField" (globals s).
Proof.
  revert s. change (frame cell9). unfold cell9. repeat frame_step.
Qed.

(** Evaluates the whole notebook, keeping the library results and the final
    test readable. *)
Ltac run_full :=
  cbv -[set_at_indices scatter map uw_specialSet uw_variableData uw_solve
        uw_integral the_mesh Qdiv np_isclose].

Ltac case_integral :=
  match goal with
  | |- context [uw_integral ?m ?d] =>
      let E := fresh "I" in destruct (uw_integral m d) eqn:E
  end.

Ltac case_isclose :=
  match goal with
  | |- context [np_isclose ?a ?b] =>
      let E := fresh "C" in destruct (np_isclose a b) eqn:E
  end.

(** Splits the whole run on the outcomes of the library and of the test. *)
Ltac split_run :=
  unfold run_all; run_full;
  case_set_at_indices; run_full; [case_set_at_indices; run_full|];
  try (case_integral; run_full; [|case_isclose; run_full]).

(** C2: when the notebook computes [avtemp] (cell 9), it ends in
    [RuntimeError("Incorrect average temperature produced by model. ")]
    exactly when [np.isclose(avtemp, 0.5)] is false, and ends without an
    error when it is true. *)
Theorem check_raises_iff_not_close :
  forall a,
    lookup "avtemp" (globals (snd run_all)) = Some (VFloat a) ->
    (fst run_all = Err (RuntimeError check_message) <->
       np_isclose a (1 # 2) = false) /\
    (np_isclose a (1 # 2) = true -> fst run_all = Ok tt).
Proof.
  split_run; intros a Ha; try discriminate;
    injection Ha as <-; rewrite C; split; try split; congruence.
Qed.

(** C3: the value bound to [avtemp] is the first component of
    [Integral(temperatureField, mesh).evaluate()] on the solved field,
    divided by [boxHeight * boxLength], which is [2.0]. *)
Theorem avtemp_is_mean :
  forall a,
    lookup "avtemp" (globals (snd run_all)) = Some (VFloat a) ->
    exists h d bh bl i0 rest,
      lookup "temperatureField" (globals (snd run_all)) = Some (VMeshVariable h) /\
      nth_error (store (snd run_all)) h = Some (the_mesh, d) /\
      lookup "boxHeight" (globals (snd run_all)) = Some (VFloat bh) /\
      lookup "boxLength" (globals (snd run_all)) = Some (VFloat bl) /\
      uw_integral the_mesh d = i0 :: rest /\
      a = (i0 / (bh * bl))%Q /\
      (bh * bl == 2)%Q.
Proof.
  split_run; intros a Ha; try discriminate; injection Ha as <-;
    eexists 0, _, _, _, _, _; cbn;
    (split; [reflexivity|]); (split; [reflexivity|]);
    (split; [reflexivity|]); (split; [reflexivity|]);
    (split; [eassumption|]); split; reflexivity.
Qed.

(** The order of the stages in the notebook. *)
Definition notebook_stages : list stage :=
  [Params; MeshVar; BCs; Visual; Solve; Visual; Check].

Fixpoint is_prefix (l r : list stage) : bool :=
  match l, r with
  | [], _ => true
  | a :: l', b :: r' => stage_eqb a b && is_prefix l' r'
  | _ :: _, [] => false
  end.

(** C7 (as the notebook is written): the stages run as a linear script,
    parameters, mesh and variable, boundary conditions (with the boundary
    values), a first visualization of the figure, the solve, the figure shown
    again, the average-temperature check.  A run stopped by an [IndexError]
    has run a prefix of these stages; any other run has run all of them. *)
Theorem stage_order :
  is_prefix (stage_trace (events (snd run_all))) notebook_stages = true /\
  (fst run_all <> Err IndexError ->
     stage_trace (events (snd run_all)) = notebook_stages).
Proof.
  split_run; split; try reflexivity; intros H; try reflexivity;
    exfalso; apply H; reflexivity.
Qed.

(** ** Further properties of the notebook *)

(** The solve of cell 7 works on the one variable of the notebook, with
    diffusivity [1.0], the condition on [bcWalls] and the data prepared by
    cells 3 and 5; its result is what the field holds at the end. *)
Theorem solve_receives_prepared_field
  (Hbot : forall i, In i bottom -> i < length data0)
  (Htop : forall i, In i top -> i < length data0) :
  lookup "heatequation" (globals (snd run_all)) =
    Some (VHeatSystem (mkHeatSystem 0 1%Q (mkDirichlet 0 [iset_add bottom top]))) /\
  nth_error (store (snd run_all)) 0 =
    Some (the_mesh,
          uw_solve the_mesh 1%Q [iset_add bottom top]
            (scatter top 0%Q (scatter bottom 1%Q (map (fun _ => 0%Q) data0)))).
Proof.
  assert (Hb : forall i, In i bottom -> i < length (map (fun _ => 0%Q) data0))
    by (intros i Hi; rewrite length_map; now apply Hbot).
  assert (Ht : forall i, In i top ->
            i < length (scatter bottom 1%Q (map (fun _ => 0%Q) data0)))
    by (intros i Hi; rewrite length_scatter, length_map; now apply Htop).
  unfold bottom, top, data0 in *.
  unfold run_all. run_full.
  case_set_at_indices;
    [|exfalso; rewrite set_at_indices_ok in E by exact Hb; discriminate].
  run_full.
  case_set_at_indices;
    [|exfalso; rewrite set_at_indices_ok in E by exact Ht; discriminate].
  run_full.
  case_integral; run_full; [|case_isclose; run_full]; split; reflexivity.
Qed.

(** Cell 5 writes the top wall last: through cell 6 every top-wall index holds
    [0.0], also where it is a bottom-wall index too, every other bottom-wall
    index holds [1.0], and the data array keeps the length the library gave
    it. *)
Theorem top_assignment_wins
  (Hbot : forall i, In i bottom -> i < length data0)
  (Htop : forall i, In i top -> i < length data0) :
  exists s d,
    run_upto 6 = (Ok tt, s) /\
    nth_error (store s) 0 = Some (the_mesh, d) /\
    length d = length data0 /\
    (forall i, In i top -> nth_error d i = Some 0%Q) /\
    (forall i, In i bottom -> ~ In i top -> nth_error d i = Some 1%Q).
Proof.
  unfold run_upto. run_notebook.
  rewrite set_at_indices_ok
    by (intros i Hi; rewrite length_map; now apply Hbot).
  run_notebook.
  rewrite set_at_indices_ok
    by (intros i Hi; rewrite length_scatter, length_map; now apply Htop).
  run_notebook.
  eexists _, _. split; [reflexivity|]. run_notebook.
  split; [reflexivity|]. split; [|split].
  - now rewrite length_scatter, length_scatter, length_map.
  - intros i Hi. apply scatter_in; [exact Hi|].
    rewrite length_scatter, length_map. now apply Htop.
  - intros i Hi Hnt. rewrite scatter_notin by exact Hnt.
    apply scatter_in; [exact Hi|]. rewrite length_map. now apply Hbot.
Qed.

Lemma set_at_indices_none idx v d i :
  In i idx -> length d <= i -> set_at_indices idx v d = None.
Proof.
  intros Hi Hl. unfold set_at_indices.
  destruct (forallb _ idx) eqn:E; [|reflexivity].
  apply (proj1 (forallb_forall _ idx)) with (x := i) in E; [|exact Hi].
  apply Nat.ltb_lt in E. lia.
Qed.

(** A bottom-wall index outside the data array makes
    [temperatureField.data[botWalls] = 1.0] raise [IndexError]: the notebook
    stops in cell 5, the solver is never invoked, and the field keeps the
    zeros of cell 3. *)
Theorem bottom_out_of_range_stops
  (i : nat) (Hi : In i bottom) (Hl : length data0 <= i) :
  fst run_all = Err IndexError /\
  ~ In EvSolve (events (snd run_all)) /\
  nth_error (store (snd run_all)) 0 = Some (the_mesh, map (fun _ => 0%Q) data0).
Proof.
  unfold run_all. run_full.
  rewrite (set_at_indices_none _ _ _ i) by (try rewrite length_map; assumption).
  run_full. split; [reflexivity|]. split; [|reflexivity].
  intros H. repeat (destruct H as [H|H]; [discriminate|]). exact H.
Qed.


(** An empty result of [tottemp.evaluate()] makes [evaluate()[0]] raise
    [IndexError]: [avtemp] is never bound and the [RuntimeError] is not
    raised. *)
Theorem empty_integral_index_error
  (Hbot : forall i, In i bottom -> i < length data0)
  (Htop : forall i, In i top -> i < length data0)
  (He : uw_integral the_mesh
          (uw_solve the_mesh 1%Q [iset_add bottom top]
             (scatter top 0%Q (scatter bottom 1%Q (map (fun _ => 0%Q) data0)))) = []) :
  fst run_all = Err IndexError /\
  lookup "avtemp" (globals (snd run_all)) = None /\
  ~ In EvRaise (events (snd run_all)).
Proof.
  assert (Hb : forall i, In i bottom -> i < length (map (fun _ => 0%Q) data0))
    by (intros i Hi; rewrite length_map; now apply Hbot).
  assert (Ht : forall i, In i top ->
            i < length (scatter bottom 1%Q (map (fun _ => 0%Q) data0)))
    by (intros i Hi; rewrite length_scatter, length_map; now apply Htop).
  unfold bottom, top, data0 in *.
  unfold run_all. run_full.
  case_set_at_indices;
    [|exfalso; rewrite set_at_indices_ok in E by exact Hb; discriminate].
  run_full.
  case_set_at_indices;
    [|exfalso; rewrite set_at_indices_ok in E by exact Ht; discriminate].
  run_full.
  case_integral;
    [|exfalso; pose proof (eq_trans (eq_sym He) I) as X; discriminate X].
  run_full.
  split; [reflexivity|]. split; [reflexivity|].
  intros H. repeat (destruct H as [H|H]; [discriminate|]). exact H.
Qed.

Lemma isclose_half a :
  np_isclose a (1 # 2) = true <-> (Qabs (a - (1 # 2)) <= 501 # 100000000)%Q.
Proof.
  unfold np_isclose. rewrite Qle_bool_iff.
  assert (H : (np_atol + np_rtol * Qabs (1 # 2) == 501 # 100000000)%Q)
    by reflexivity.
  rewrite H. reflexivity.
Qed.

(** The tolerance of the final check: once [avtemp] is computed, the notebook
    raises its [RuntimeError] exactly when [avtemp] is farther than
    [5.01e-6] (that is [1e-08 + 1e-05 * 0.5]) from [0.5]. *)
Theorem check_tolerance :
  forall a,
    lookup "avtemp" (globals (snd run_all)) = Some (VFloat a) ->
    (fst run_all = Err (RuntimeError check_message) <->
       (501 # 100000000 < Qabs (a - (1 # 2)))%Q).
Proof.
  intros a Ha.
  assert (H : fst run_all = Err (RuntimeError check_message) <->
              np_isclose a (1 # 2) = false).
  { revert Ha. split_run; intros Ha; try discriminate;
      injection Ha as <-; rewrite C; split; congruence. }
  rewrite H. split.
  - intros Hf. apply Qnot_le_lt. intros Hle.
    apply isclose_half in Hle. congruence.
  - intros Hlt. destruct (np_isclose a (1 # 2)) eqn:C; [|reflexivity].
    apply isclose_half in C. exfalso. exact (Qlt_not_le _ _ Hlt C).
Qed.

(** The two visualization cells only draw: from any state, cell 6 (building
    and showing the figure) and cell 8 (showing it again) leave the data of
    every mesh variable and the bindings of [mesh] and [temperatureField]
    unchanged, whether they return or raise. *)
Theorem visualization_reads_only (s : State) :
  (store (snd (cell6 s)) = store s /\
   lookup "mesh" (globals (snd (cell6 s))) = lookup "mesh" (globals s) /\
   lookup "temperatureField" (globals (snd (cell6 s))) =
     lookup "temperatureField" (globals s)) /\
  (store (snd (cell8 s)) = store s /\
   lookup "mesh" (globals (snd (cell8 s))) = lookup "mesh" (globals s) /\
   lookup "temperatureField" (globals (snd (cell8 s))) =
     lookup "temperatureField" (globals s)).
Proof.
  revert s. cut (frame cell6 /\ frame cell8).
  { intros [H6 H8] s. exact (conj (H6 s) (H8 s)). }
  unfold cell6, cell8, fig_append, fig_show, load_figure.
  split; repeat frame_step.
Qed.

(** One variable, shared by every object: the notebook allocates exactly one
    mesh variable, and the Dirichlet condition, the heat system, the integral
    and the surface of the figure all refer to that same variable (handle
    [0]) on the same mesh. *)
Theorem single_shared_variable :
  forall dc hs h m objs,
    lookup "tempBC" (globals (snd run_all)) = Some (VDirichlet dc) ->
    lookup "heatequation" (globals (snd run_all)) = Some (VHeatSystem hs) ->
    lookup "tottemp" (globals (snd run_all)) = Some (VIntegral h m) ->
    lookup "fig" (globals (snd run_all)) = Some (VFigure objs) ->
    length (store (snd run_all)) = 1 /\
    lookup "temperatureField" (globals (snd run_all)) = Some (VMeshVariable 0) /\
    dc_variable dc = 0 /\
    hs_temperatureField hs = 0 /\ hs_conditions hs = dc /\
    h = 0 /\ m = the_mesh /\
    objs = [DMesh the_mesh; DSurface the_mesh 0 "blue white red"].
Proof.
  split_run; intros dc hs h m objs Hdc Hhs Hh Hf; try discriminate;
    injection Hdc as <-; injection Hhs as <-; injection Hh as <- <-;
    injection Hf as <-; repeat split; reflexivity.
Qed.

End Properties.

(** ** The theorems at the sample library *)

Section Sample.
#[local] Existing Instance Cartesian.uw.

Lemma lt_of_bool (l : list nat) n :
  forallb (fun i => Nat.ltb i n) l = true -> forall i, In i l -> i < n.
Proof.
  intros H i Hi. apply Nat.ltb_lt. exact (proj1 (forallb_forall _ l) H i Hi).
Qed.

Lemma not_in_of_bool i (l : list nat) : existsb (Nat.eqb i) l = false -> ~ In i l.
Proof.
  intros H Hi. assert (existsb (Nat.eqb i) l = true) as H'
    by (apply existsb_exists; exists i; split; [exact Hi | apply Nat.eqb_refl]).
  congruence.
Qed.

Lemma disjoint_of_bool (a b : list nat) :
  forallb (fun i => negb (existsb (Nat.eqb i) b)) a = true ->
  forall i, In i a -> ~ In i b.
Proof.
  intros H i Hi. apply not_in_of_bool.
  apply (proj1 (forallb_forall _ a) H i) in Hi. now destruct (existsb _ _).
Qed.

Definition final_avtemp : Q :=
  match lookup "avtemp" (globals (snd run_all)) with
  | Some (VFloat a) => a
  | _ => 0%Q
  end.

Definition data_upto6 : list Q :=
  match nth_error (store (snd (run_upto 6))) 0 with
  | Some (_, d) => d
  | None => []
  end.

(** The sample mesh has 17 x 9 nodes; node 20 is an interior node. *)
Lemma boundary_values_assigned_witness :
  exists s h d,
    run_upto 6 = (Ok tt, s) /\
    lookup "temperatureField" (globals s) = Some (VMeshVariable h) /\
    nth_error (store s) h = Some (the_mesh, d) /\
    (forall i, In i bottom -> nth_error d i = Some 1%Q) /\
    (forall i, In i top -> nth_error d i = Some 0%Q).
Proof.
  apply boundary_values_assigned.
  - apply lt_of_bool. vm_compute. reflexivity.
  - apply lt_of_bool. vm_compute. reflexivity.
  - apply disjoint_of_bool. vm_compute. reflexivity.
Defined.

Lemma interior_entries_zero_witness :
  lookup "temperatureField" (globals (snd (run_upto 6))) = Some (VMeshVariable 0) /\
  nth_error (store (snd (run_upto 6))) 0 = Some (the_mesh, data_upto6) /\
  ~ In 20 bottom /\ ~ In 20 top /\
  nth_error data_upto6 20 = Some 0%Q /\ 0%Q = 0%Q.
Proof.
  assert (H1 : lookup "temperatureField" (globals (snd (run_upto 6))) =
               Some (VMeshVariable 0)) by (vm_compute; reflexivity).
  assert (H2 : nth_error (store (snd (run_upto 6))) 0 = Some (the_mesh, data_upto6))
    by (vm_compute; reflexivity).
  assert (H3 : ~ In 20 bottom) by (apply not_in_of_bool; vm_compute; reflexivity).
  assert (H4 : ~ In 20 top) by (apply not_in_of_bool; vm_compute; reflexivity).
  assert (H5 : nth_error data_upto6 20 = Some 0%Q) by (vm_compute; reflexivity).
  do 5 (split; [assumption|]).
  exact (interior_entries_zero 0 data_upto6 20 0%Q H1 H2 H3 H4 H5).
Defined.

Lemma check_raises_iff_not_close_witness :
  lookup "avtemp" (globals (snd run_all)) = Some (VFloat final_avtemp) /\
  ((fst run_all = Err (RuntimeError check_message) <->
      np_isclose final_avtemp (1 # 2) = false) /\
   (np_isclose final_avtemp (1 # 2) = true -> fst run_all = Ok tt)).
Proof.
  assert (H : lookup "avtemp" (globals (snd run_all)) = Some (VFloat final_avtemp))
    by (vm_compute; reflexivity).
  split; [exact H | exact (check_raises_iff_not_close final_avtemp H)].
Defined.

Lemma avtemp_is_mean_witness :
  lookup "avtemp" (globals (snd run_all)) = Some (VFloat final_avtemp) /\
  exists h d bh bl i0 rest,
    lookup "temperatureField" (globals (snd run_all)) = Some (VMeshVariable h) /\
    nth_error (store (snd run_all)) h = Some (the_mesh, d) /\
    lookup "boxHeight" (globals (snd run_all)) = Some (VFloat bh) /\
    lookup "boxLength" (globals (snd run_all)) = Some (VFloat bl) /\
    uw_integral the_mesh d = i0 :: rest /\
    final_avtemp = (i0 / (bh * bl))%Q /\
    (bh * bl == 2)%Q.
Proof.
  assert (H : lookup "avtemp" (globals (snd run_all)) = Some (VFloat final_avtemp))
    by (vm_compute; reflexivity).
  split; [exact H | exact (avtemp_is_mean final_avtemp H)].
Defined.

Lemma stage_order_witness :
  fst run_all <> Err IndexError /\
  stage_trace (events (snd run_all)) = notebook_stages.
Proof.
  assert (H : fst run_all <> Err IndexError) by (vm_compute; discriminate).
  split; [exact H | exact (proj2 stage_order H)].
Defined.

(** C7 as stated fails: the figure is shown before the solve and once more
    after it, so the stages do not run in the order parameters, mesh and
    variable, boundary conditions, solve, visualization, check, each once. *)
Lemma stage_order_counterexample :
  stage_trace (events (snd run_all)) <> [Params; MeshVar; BCs; Solve; Visual; Check].
Proof. vm_compute. discriminate. Qed.

Lemma solve_receives_prepared_field_witness :
  lookup "heatequation" (globals (snd run_all)) =
    Some (VHeatSystem (mkHeatSystem 0 1%Q (mkDirichlet 0 [iset_add bottom top]))) /\
  nth_error (store (snd run_all)) 0 =
    Some (the_mesh,
          uw_solve the_mesh 1%Q [iset_add bottom top]
            (scatter top 0%Q (scatter bottom 1%Q (map (fun _ => 0%Q) data0)))).
Proof.
  apply solve_receives_prepared_field.
  - apply lt_of_bool. vm_compute. reflexivity.
  - apply lt_of_bool. vm_compute. reflexivity.
Defined.

Lemma top_assignment_wins_witness :
  exists s d,
    run_upto 6 = (Ok tt, s) /\
    nth_error (store s) 0 = Some (the_mesh, d) /\
    length d = length data0 /\
    (forall i, In i top -> nth_error d i = Some 0%Q) /\
    (forall i, In i bottom -> ~ In i top -> nth_error d i = Some 1%Q).
Proof.
  apply top_assignment_wins.
  - apply lt_of_bool. vm_compute. reflexivity.
  - apply lt_of_bool. vm_compute. reflexivity.
Defined.

Lemma check_tolerance_witness :
  lookup "avtemp" (globals (snd run_all)) = Some (VFloat final_avtemp) /\
  (fst run_all = Err (RuntimeError check_message) <->
     (501 # 100000000 < Qabs (final_avtemp - (1 # 2)))%Q).
Proof.
  assert (H : lookup "avtemp" (globals (snd run_all)) = Some (VFloat final_avtemp))
    by (vm_compute; reflexivity).
  split; [exact H | exact (check_tolerance final_avtemp H)].
Defined.

Definition final_dc : DirichletCondition := mkDirichlet 0 [iset_add bottom top].

Lemma single_shared_variable_witness :
  length (store (snd run_all)) = 1 /\
  lookup "temperatureField" (globals (snd run_all)) = Some (VMeshVariable 0) /\
  dc_variable final_dc = 0 /\
  hs_temperatureField (mkHeatSystem 0 1%Q final_dc) = 0 /\
  hs_conditions (mkHeatSystem 0 1%Q final_dc) = final_dc /\
  0 = 0 /\ the_mesh = the_mesh /\
  [DMesh the_mesh; DSurface the_mesh 0 "blue white red"] =
    [DMesh the_mesh; DSurface the_mesh 0 "blue white red"].
Proof.
  apply (single_shared_variable final_dc (mkHeatSystem 0 1%Q final_dc) 0 the_mesh
           [DMesh the_mesh; DSurface the_mesh 0 "blue white red"]);
    vm_compute; reflexivity.
Defined.

End Sample.

Section NoData.
#[local] Existing Instance Cartesian.uw_nodata.

Lemma bottom_out_of_range_stops_witness :
  In 0 bottom /\ length data0 <= 0 /\
  (fst run_all = Err IndexError /\
   ~ In EvSolve (events (snd run_all)) /\
   nth_error (store (snd run_all)) 0 = Some (the_mesh, map (fun _ => 0%Q) data0)).
Proof.
  assert (H1 : In 0 bottom) by (vm_compute; left; reflexivity).
  assert (H2 : length data0 <= 0) by (vm_compute; lia).
  split; [exact H1|]. split; [exact H2|].
  exact (bottom_out_of_range_stops 0 H1 H2).
Defined.

End NoData.

Section NoIntegral.
#[local] Existing Instance Cartesian.uw_nointegral.

Lemma empty_integral_index_error_witness :
  fst run_all = Err IndexError /\
  lookup "avtemp" (globals (snd run_all)) = None /\
  ~ In EvRaise (events (snd run_all)).
Proof.
  apply empty_integral_index_error.
  - apply lt_of_bool. vm_compute. reflexivity.
  - apply lt_of_bool. vm_compute. reflexivity.
  - reflexivity.
Defined.

End NoIntegral.
